(** * Shopi-Py: the shop pages and their navigation

    A shallow embedding of [src/shopipy_enderelijas/shop.py].

    Python objects that the code mutates after construction (the pages,
    whose list of children grows when a back button is added) live in a
    store indexed by references, so that two names for one page are one
    entry of the store.  Objects that no line of the file ever assigns to
    after [__init__] (shops, items, categories, navigation handlers) are
    plain values.

    The chat platform SDK is outside the file.  Of it only three
    operations are used and modelled: [View.add_item], which appends a
    control to the children of a view, and the two awaited calls
    [edit_message], which replaces the embed and the view shown to the
    user, and [send_message].  An awaited call returns or raises; which
    of the two is up to the platform, a parameter of every callback.

    A Python [str] is the Rocq [string] of its UTF-8 bytes; its length
    [len] is its number of code points. *)

From Stdlib Require Import Ascii DecimalString.
From stdpp Require Import gmap strings list fin_maps.

(** ** Python strings *)

Definition newline : string := String "010"%char EmptyString.

(** A byte [10xxxxxx], which continues a code point and starts none. *)
Definition is_continuation (c : ascii) : bool :=
  match c with
  | Ascii _ _ _ _ _ _ b6 b7 => b7 && negb b6
  end.

(** [len(s)]: the number of code points. *)
Fixpoint len (s : string) : nat :=
  match s with
  | EmptyString => 0
  | String c s' => (if is_continuation c then 0 else 1) + len s'
  end.

(** [n * s] *)
Fixpoint str_repeat (n : nat) (s : string) : string :=
  match n with
  | O => ""
  | S k => s +:+ str_repeat k s
  end.

(** [sep.join(l)] *)
Definition join (sep : string) (l : list string) : string :=
  String.concat sep l.

(** [needle in hay] *)
Definition contains (hay needle : string) : Prop :=
  ∃ before after, hay = before +:+ needle +:+ after.

(** The [,d] format of an [int]: the decimal digits, a comma between
    groups of three counted from the right, a minus sign in front of a
    negative number. *)
Fixpoint group_rev (room : nat) (ds : list ascii) : list ascii :=
  match ds with
  | [] => []
  | d :: ds' =>
      match room with
      | O => ","%char :: d :: group_rev 2 ds'
      | S room' => d :: group_rev room' ds'
      end
  end.

Definition group_thousands (digits : string) : string :=
  String.string_of_list_ascii
    (rev (group_rev 3 (rev (String.list_ascii_of_string digits)))).

Definition format_comma_d (n : Z) : string :=
  let digits := NilZero.string_of_uint (N.to_uint (Z.to_N (Z.abs n))) in
  (if (n <? 0)%Z then "-" else "") +:+ group_thousands digits.

(** ** The catalog *)

(** A reference to a [ShopPage] object. *)
Definition ref := positive.

Record Shop := {
  shop_title : string;
  shop_currency : string;
  shop_footer : option string;
  shop_description : option string
}.

Record ShopItem := {
  item_id : string;
  item_name : string;
  item_description : string;
  item_price : Z;
  item_category_id : string;
  item_icon : option string;
  item_fields : list string
}.

Record ShopCategory := {
  category_id : string;
  category_name : string;
  category_navigate_to : ref;
  category_description : option string;
  category_icon : option string
}.

(** An element of a listing: the two classes the code tells apart with
    [isinstance]. *)
Inductive Entry :=
  | Item (i : ShopItem)
  | Category (c : ShopCategory).

(** The attributes both classes have. *)
Definition entry_id (e : Entry) : string :=
  match e with Item i => item_id i | Category c => category_id c end.

Definition entry_name (e : Entry) : string :=
  match e with Item i => item_name i | Category c => category_name c end.

Definition entry_icon (e : Entry) : option string :=
  match e with Item i => item_icon i | Category c => category_icon c end.

Definition is_category (e : Entry) : bool :=
  match e with Category _ => true | Item _ => false end.

Definition is_item (e : Entry) : bool := negb (is_category e).

(** [x if x else ""] on an optional string: [None] and the empty string
    are both falsy. *)
Definition or_empty (o : option string) : string :=
  match o with
  | Some s => s
  | None => ""
  end.

(** Neither dataclass defines [__bool__] or [__len__]: every instance is
    truthy. *)
Definition truthy (e : Entry) : bool := true.

(** ** Exceptions and outcomes *)

(** The exceptions the code raises itself, by indexing, by its [raise]
    and by reading an attribute, and the exception that leaves an awaited
    call of the platform, with the name of its class. *)
Inductive PyExc :=
  | IndexError
  | ValueError (msg : string)
  | AttributeError
  | PlatformError (cls : string).

(** The name of the class of an exception. *)
Definition exc_name (e : PyExc) : string :=
  match e with
  | IndexError => "IndexError"
  | ValueError _ => "ValueError"
  | AttributeError => "AttributeError"
  | PlatformError cls => cls
  end.

Inductive Outcome (A : Type) :=
  | Return (a : A)
  | Raise (e : PyExc).
Arguments Return {A} a.
Arguments Raise {A} e.

(** ** Embeds *)

Record EmbedField := {
  field_name : string;
  field_value : string;
  field_inline : bool
}.

Record Embed := {
  embed_title : string;
  embed_description : string;
  embed_fields : list EmbedField;
  embed_footer : option string
}.

(** The field [__create_embed] adds for one element of the listing. *)
Definition item_label (currency : string) (i : ShopItem) : string :=
  or_empty (item_icon i) +:+ " " +:+ item_name i +:+ " | `"
    +:+ format_comma_d (item_price i) +:+ "` " +:+ currency.

Definition item_body (i : ShopItem) : string :=
  ("*" +:+ item_description i +:+ "*" +:+ newline
     +:+ str_repeat (len (item_description i) + 1) "-" +:+ newline)
    +:+ join newline (map (λ x, "> " +:+ x) (item_fields i)).

Definition category_label (c : ShopCategory) : string :=
  or_empty (category_icon c) +:+ " " +:+ category_name c.

Definition category_body (c : ShopCategory) : string :=
  or_empty (category_description c).

Definition entry_field (s : Shop) (e : Entry) : EmbedField :=
  match e with
  | Category c =>
      {| field_name := category_label c;
         field_value := category_body c;
         field_inline := false |}
  | Item i =>
      {| field_name := item_label (shop_currency s) i;
         field_value := item_body i;
         field_inline := false |}
  end.

Definition create_embed (s : Shop) (title description : string)
    (items : list Entry) (footer : option string) : Embed :=
  {| embed_title := title +:+ " | " +:+ shop_title s;
     embed_description := description;
     embed_fields := map (entry_field s) items;
     embed_footer := footer |}.

(** ** Controls and pages *)

(** A handler keeps the two pages it was built with; nothing assigns to
    its attributes afterwards. *)
Record NavigationHandler := {
  to_page : ref;
  from_page : ref
}.

Record SelectOption := {
  option_label : string;
  option_value : string;
  option_emoji : option string
}.

(** What an [ItemSelector] calls on a selection: the coroutine it was
    given, named here by a number, or its own [on_select_default]. *)
Inductive OnSelect :=
  | Given (h : nat)
  | Default.

(** The three kinds of children a page gets in this file. *)
Inductive Control :=
  | CategorySelector (categories : list Entry) (options : list SelectOption)
  | ItemSelector (items : list Entry) (on_select : OnSelect)
      (options : list SelectOption)
  | BackButton (nav_handler : NavigationHandler).

Record ShopPage := {
  page_shop : Shop;
  page_title : string;
  page_items : list Entry;
  page_description : string;
  page_footer : option string;
  page_embed : Embed;
  children : list Control
}.

(** [isinstance(child, BackButton)] *)
Definition is_back_button (c : Control) : bool :=
  match c with
  | BackButton _ => true
  | _ => false
  end.

(** [[child for child in children if isinstance(child, BackButton)]] *)
Definition back_buttons (cs : list Control) : list Control :=
  List.filter is_back_button cs.

Definition select_options (l : list Entry) : list SelectOption :=
  map (λ e, {| option_label := entry_name e;
               option_value := entry_id e;
               option_emoji := entry_icon e |}) l.

Definition CategorySelector_init (categories : list Entry) : Control :=
  CategorySelector categories (select_options categories).

Definition ItemSelector_init (items : list Entry) (on_select : option nat)
    : Control :=
  ItemSelector items
    (match on_select with Some h => Given h | None => Default end)
    (select_options items).

(** [View.add_item] *)
Definition add_item (p : ShopPage) (c : Control) : ShopPage :=
  {| page_shop := page_shop p;
     page_title := page_title p;
     page_items := page_items p;
     page_description := page_description p;
     page_footer := page_footer p;
     page_embed := page_embed p;
     children := children p ++ [c] |}.

(** [ShopPage.__init__]: the state of the new object, or the exception
    that leaves the constructor. *)
Definition ShopPage_init (shop : Shop) (title description : string)
    (items : list Entry) (footer : option string) (on_select : option nat)
    : Outcome ShopPage :=
  let self :=
    {| page_shop := shop;
       page_title := title;
       page_items := items;
       page_description := description;
       page_footer := footer;
       page_embed := create_embed shop title description items footer;
       children := [] |} in
  match items !! 0%nat with
  | None => Raise IndexError
  | Some first =>
      if is_category first
      then Return (add_item self (CategorySelector_init items))
      else Return (add_item self (ItemSelector_init items on_select))
  end.

(** ** The store of pages *)

(** [ShopPage(...)] as an expression: the new object gets a reference no
    page of the store has. *)
Definition ShopPage_new (shop : Shop) (title description : string)
    (items : list Entry) (footer : option string) (on_select : option nat)
    (σ : gmap ref ShopPage) : Outcome ref * gmap ref ShopPage :=
  match ShopPage_init shop title description items footer on_select with
  | Raise e => (Raise e, σ)
  | Return p => let r := fresh (dom σ) in (Return r, <[r := p]> σ)
  end.

(** ** NavigationHandler *)

(** What [navigate] does to the object [to_page] names. *)
Definition ensure_back_button (self : NavigationHandler) (p : ShopPage)
    : ShopPage :=
  match back_buttons (children p) with
  | [] => add_item p (BackButton self)
  | _ :: _ => p
  end.

(** [navigate]: the page returned and the store after the call.  The
    object [to_page] names is changed in place; a reference that names no
    object of the store, which no Python state has, leaves the store as
    it is. *)
Definition navigate (self : NavigationHandler) (σ : gmap ref ShopPage)
    : ref * gmap ref ShopPage :=
  (to_page self, alter (ensure_back_button self) (to_page self) σ).

Definition go_back (self : NavigationHandler) : ref := from_page self.

(** [n] calls of [navigate] in a row. *)
Fixpoint navigate_times (n : nat) (self : NavigationHandler)
    (σ : gmap ref ShopPage) : gmap ref ShopPage :=
  match n with
  | O => σ
  | S k => navigate_times k self (navigate self σ).2
  end.

(** The stores that the constructor and [navigate] build from the empty
    one. *)
Inductive reachable : gmap ref ShopPage → Prop :=
  | reachable_empty : reachable ∅
  | reachable_new σ shop title description items footer on_select :
      reachable σ →
      reachable
        (ShopPage_new shop title description items footer on_select σ).2
  | reachable_navigate σ h :
      reachable σ → reachable (navigate h σ).2.

(** ** The session *)

(** What the user sees: the view and the embed of the last
    [edit_message], and the messages sent so far. *)
Record Session := {
  shown_view : ref;
  shown_embed : Embed;
  sent : list string
}.

Record World := {
  pages : gmap ref ShopPage;
  session : Session
}.

(** A coroutine run to its end from a world: its outcome and the world it
    leaves.  An exception undoes nothing.  [None] is for a reference that
    names no object of the store, which no Python state has. *)
Definition M (A : Type) : Type := World → option (Outcome A * World).

Definition ret {A} (a : A) : M A := λ w, Some (Return a, w).

Definition raise {A} (e : PyExc) : M A := λ w, Some (Raise e, w).

Definition bind {A B} (m : M A) (k : A → M B) : M B :=
  λ w, match m w with
       | None => None
       | Some (Raise e, w') => Some (Raise e, w')
       | Some (Return a, w') => k a w'
       end.

Notation "x <- m ;; k" := (bind m (λ x, k))
  (at level 100, m at next level, right associativity).

Definition deref (r : ref) : M ShopPage :=
  λ w, match pages w !! r with
       | Some p => Some (Return p, w)
       | None => None
       end.

Definition with_pages {A} (f : gmap ref ShopPage → A * gmap ref ShopPage)
    : M A :=
  λ w, let '(a, σ) := f (pages w) in
       Some (Return a, {| pages := σ; session := session w |}).

(** The two awaited calls of the platform. *)
Inductive PlatformCall :=
  | EditMessage (embed : Embed) (view : ref)
  | SendMessage (text : string).

(** What the platform does with a call made in a world: [None] when the
    call returns, the class of the exception when it raises. *)
Definition Platform : Type := PlatformCall → World → option string.

(** [interaction.response.edit_message(embed=..., view=...)]: a call
    that raises has shown nothing. *)
Definition edit_message (platform : Platform) (embed : Embed) (view : ref)
    : M unit :=
  λ w, match platform (EditMessage embed view) w with
       | Some cls => Some (Raise (PlatformError cls), w)
       | None =>
           Some (Return tt,
                 {| pages := pages w;
                    session := {| shown_view := view;
                                  shown_embed := embed;
                                  sent := sent (session w) |} |})
       end.

(** [interaction.response.send_message(text)]: a call that raises has
    sent nothing. *)
Definition send_message (platform : Platform) (text : string) : M unit :=
  λ w, match platform (SendMessage text) w with
       | Some cls => Some (Raise (PlatformError cls), w)
       | None =>
           Some (Return tt,
                 {| pages := pages w;
                    session := {| shown_view := shown_view (session w);
                                  shown_embed := shown_embed (session w);
                                  sent := sent (session w) ++ [text] |} |})
       end.

(** [l[0]] *)
Definition index0 {A} (l : list A) : M A :=
  match l !! 0%nat with
  | Some a => ret a
  | None => raise IndexError
  end.

(** [[e for e in l if e.id == values[0]]]: [values[0]] is evaluated once
    for each element of [l], so not at all when [l] is empty. *)
Definition matching (l : list Entry) (values : list string)
    : M (list Entry) :=
  match l with
  | [] => ret []
  | _ :: _ =>
      v <- index0 values ;;
      ret (List.filter (λ e, String.eqb (entry_id e) v) l)
  end.

(** [e.navigate_to]: only a [ShopCategory] has the attribute. *)
Definition navigate_to (e : Entry) : M ref :=
  match e with
  | Category c => ret (category_navigate_to c)
  | Item _ => raise AttributeError
  end.

(** [BackButton.callback] *)
Definition BackButton_callback (platform : Platform)
    (nav_handler : NavigationHandler) : M unit :=
  let page := go_back nav_handler in
  p <- deref page ;;
  edit_message platform (page_embed p) page.

(** [CategorySelector.callback]; [view] is [self.view], the page the
    selector was added to, and [values] is [self.values]. *)
Definition CategorySelector_callback (platform : Platform)
    (categories : list Entry) (view : ref) (values : list string)
    : M unit :=
  found <- matching categories values ;;
  selected_category <- index0 found ;;
  if negb (truthy selected_category)
  then (v <- index0 values ;;
        raise (ValueError ("No category found with ID:" +:+ v)))
  else
    target <- navigate_to selected_category ;;
    let nav_handler := {| to_page := target; from_page := view |} in
    page <- with_pages (navigate nav_handler) ;;
    p <- deref page ;;
    edit_message platform (page_embed p) page.

(** [ItemSelector.on_select_default] *)
Definition on_select_default (platform : Platform) (item : Entry)
    : M unit :=
  send_message platform ("Succesfully purchased " +:+ entry_name item).

Section Handlers.

(** The platform the callbacks run on. *)
Variable platform : Platform.

(** The coroutines the application passes as [on_select]. *)
Variable run_handler : nat → Entry → M unit.

Definition call_on_select (on_select : OnSelect) (item : Entry) : M unit :=
  match on_select with
  | Given h => run_handler h item
  | Default => on_select_default platform item
  end.

(** [ItemSelector.callback] *)
Definition ItemSelector_callback (items : list Entry)
    (on_select : OnSelect) (values : list string) : M unit :=
  found <- matching items values ;;
  selected_item <- index0 found ;;
  call_on_select on_select selected_item.

(** A control of the page [view] receives a selection. *)
Definition callback (c : Control) (view : ref) (values : list string)
    : M unit :=
  match c with
  | CategorySelector categories _ =>
      CategorySelector_callback platform categories view values
  | ItemSelector items on_select _ =>
      ItemSelector_callback items on_select values
  | BackButton nav_handler => BackButton_callback platform nav_handler
  end.

End Handlers.

(** ** Sample catalog *)

Definition general_store : Shop :=
  {| shop_title := "General Store";
     shop_currency := "coins";
     shop_footer := None;
     shop_description := None |}.

Definition gold_shop : Shop :=
  {| shop_title := "Armory";
     shop_currency := "gold";
     shop_footer := None;
     shop_description := None |}.

Definition hammer : ShopItem :=
  {| item_id := "i1";
     item_name := "Hammer";
     item_description := "abc";
     item_price := 50;
     item_category_id := "c1";
     item_icon := None;
     item_fields := ["x"; "y"] |}.

Definition sword : ShopItem :=
  {| item_id := "i2";
     item_name := "Sword";
     item_description := "Sharp";
     item_price := 1234;
     item_category_id := "c1";
     item_icon := Some "S";
     item_fields := [] |}.

Definition tools (target : ref) : ShopCategory :=
  {| category_id := "c1";
     category_name := "Tools";
     category_navigate_to := target;
     category_description := None;
     category_icon := None |}.

(** The scenario of two pages: the page of the tools, built first, and
    the top page whose one category leads to it. *)
Definition tools_page : ShopPage :=
  {| page_shop := general_store;
     page_title := "Tools";
     page_items := [Item hammer];
     page_description := "All tools";
     page_footer := None;
     page_embed :=
       create_embed general_store "Tools" "All tools" [Item hammer] None;
     children := [ItemSelector_init [Item hammer] None] |}.

Definition top_page : ShopPage :=
  {| page_shop := general_store;
     page_title := "Shop";
     page_items := [Category (tools 1%positive)];
     page_description := "Welcome";
     page_footer := None;
     page_embed :=
       create_embed general_store "Shop" "Welcome"
         [Category (tools 1%positive)] None;
     children := [CategorySelector_init [Category (tools 1%positive)]] |}.

Definition two_pages : gmap ref ShopPage :=
  <[2%positive := top_page]> (<[1%positive := tools_page]> ∅).

(** A third page whose one category also leads to the tools. *)
Definition other_page : ShopPage :=
  {| page_shop := general_store;
     page_title := "Offers";
     page_items := [Category (tools 1%positive)];
     page_description := "This week";
     page_footer := None;
     page_embed :=
       create_embed general_store "Offers" "This week"
         [Category (tools 1%positive)] None;
     children := [CategorySelector_init [Category (tools 1%positive)]] |}.

Definition three_pages : gmap ref ShopPage :=
  <[3%positive := other_page]> two_pages.

(** From the top page to the page of the tools. *)
Definition top_to_tools : NavigationHandler :=
  {| to_page := 1%positive; from_page := 2%positive |}.

(** A handler whose two pages are one object. *)
Definition top_to_top : NavigationHandler :=
  {| to_page := 2%positive; from_page := 2%positive |}.

(** From the third page to the page of the tools. *)
Definition other_to_tools : NavigationHandler :=
  {| to_page := 1%positive; from_page := 3%positive |}.

Definition on_top_page : World :=
  {| pages := two_pages;
     session := {| shown_view := 2%positive;
                   shown_embed := page_embed top_page;
                   sent := [] |} |}.

(** A platform whose calls all return, and one whose calls all raise. *)
Definition reliable : Platform := λ _ _, None.

Definition offline : Platform := λ _ _, Some "HTTPException".

(** An item whose description has one code point of two bytes. *)
Definition cafe : ShopItem :=
  {| item_id := "i3";
     item_name := "Coffee";
     item_description := String "195"%char (String "169"%char EmptyString);
     item_price := 3;
     item_category_id := "c1";
     item_icon := None;
     item_fields := [] |}.

(** No coroutine of the application: every [on_select] given returns at
    once. *)
Definition no_handler : nat → Entry → M unit := λ _ _, ret tt.

(** A listing is mixed when it holds an item and a category. *)
Definition mixed (l : list Entry) : bool :=
  existsb is_category l && existsb is_item l.

Definition homogeneous (l : list Entry) : bool :=
  forallb is_category l || forallb is_item l.

(** A string made of dashes only. *)
Fixpoint all_dashes (s : string) : bool :=
  match s with
  | EmptyString => true
  | String c s' => Ascii.eqb c "-" && all_dashes s'
  end.

(** ** Observations on prices, selectors and pages *)

(** The decimal digits of a natural number, as [str] gives them. *)
Definition decimal (n : N) : string :=
  NilZero.string_of_uint (N.to_uint n).

(** The string without its commas. *)
Definition strip_commas (s : string) : string :=
  String.string_of_list_ascii
    (List.filter (λ c, negb (Ascii.eqb c ","))
       (String.list_ascii_of_string s)).

(** [Select.options] of a selector; a button has none. *)
Definition control_options (c : Control) : list SelectOption :=
  match c with
  | CategorySelector _ options => options
  | ItemSelector _ _ options => options
  | BackButton _ => []
  end.

(** Every element of the listing is a category whose [navigate_to] names
    a page of the store. *)
Definition links_resolved (σ : gmap ref ShopPage) (l : list Entry) : bool :=
  forallb (λ e, match e with
                | Category c =>
                    bool_decide (is_Some (σ !! category_navigate_to c))
                | Item _ => false
                end) l.

(** The shape of the page at reference [r] after [ShopPage.__init__] and
    any number of calls of [navigate]: the embed and the selector are
    those of its own listing, and the selector is followed by at most
    one back button, of a handler that leads to this page. *)
Definition page_shape (r : ref) (p : ShopPage) : Prop :=
  ∃ first rest on_select,
    page_items p = first :: rest
    ∧ page_embed p =
        create_embed (page_shop p) (page_title p) (page_description p)
          (page_items p) (page_footer p)
    ∧ let selector :=
        if is_category first
        then CategorySelector_init (page_items p)
        else ItemSelector_init (page_items p) on_select in
      children p = [selector]
      ∨ ∃ h, to_page h = r ∧ children p = [selector; BackButton h].

(** The world after a [send_message(text)] that returned. *)
Definition after_message (w : World) (text : string) : World :=
  {| pages := pages w;
     session := {| shown_view := shown_view (session w);
                   shown_embed := shown_embed (session w);
                   sent := sent (session w) ++ [text] |} |}.

(** The world in which [CategorySelector.callback] calls
    [edit_message]: [navigate] has run for the handler [h]. *)
Definition navigated (w : World) (h : NavigationHandler) : World :=
  {| pages := (navigate h (pages w)).2; session := session w |}.

(** The world after an [edit_message] that returned has shown the page
    [view] of the store [σ] with the embed [embed]. *)
Definition showing (w : World) (σ : gmap ref ShopPage) (view : ref)
    (embed : Embed) : World :=
  {| pages := σ;
     session := {| shown_view := view;
                   shown_embed := embed;
                   sent := sent (session w) |} |}.

(** A page of categories only, built after the page of the tools. *)
Definition hub_listing : list Entry :=
  [Category (tools 1%positive);
   Category {| category_id := "c2";
               category_name := "More tools";
               category_navigate_to := 1%positive;
               category_description := Some "The same page";
               category_icon := Some "T" |}].

(** ** Strings *)

Lemma str_app_cons (x : ascii) (a b : string) :
  String x a +:+ b = String x (a +:+ b).
Proof. reflexivity. Qed.

Lemma str_app_assoc (a b c : string) : (a +:+ b) +:+ c = a +:+ b +:+ c.
Proof.
  induction a as [|x a IH]; [done |].
  rewrite !str_app_cons. by f_equal.
Qed.

Lemma len_app (a b : string) : len (a +:+ b) = len a + len b.
Proof.
  induction a as [|x a IH]; [done |].
  rewrite str_app_cons. cbn [len]. rewrite IH. lia.
Qed.

Lemma len_str_repeat_dash (n : nat) : len (str_repeat n "-") = n.
Proof.
  induction n as [|n IH]; [done |].
  cbn [str_repeat]. rewrite len_app, IH. done.
Qed.

Lemma str_repeat_all_dashes (n : nat) : all_dashes (str_repeat n "-") = true.
Proof. induction n as [|n IH]; [done |]. exact IH. Qed.

(** ** Page construction *)

Lemma ShopPage_init_children shop title description items footer on_select p :
  ShopPage_init shop title description items footer on_select = Return p →
  back_buttons (children p) = [] ∧ length (children p) = 1.
Proof.
  unfold ShopPage_init. destruct items as [|first rest]; simpl; [done |].
  destruct (is_category first); intros [= <-]; done.
Qed.

Lemma ShopPage_init_fields shop title description items footer on_select p :
  ShopPage_init shop title description items footer on_select = Return p →
  page_shop p = shop ∧ page_title p = title ∧ page_items p = items
  ∧ page_description p = description ∧ page_footer p = footer
  ∧ page_embed p = create_embed shop title description items footer.
Proof.
  unfold ShopPage_init. destruct items as [|first rest]; simpl; [done |].
  destruct (is_category first); intros [= <-]; done.
Qed.

(** C1, as the code has it: for every non-empty listing, homogeneous or
    not, [ShopPage.__init__] succeeds, and the page gets the one selector
    that the class of the first element chooses; for the empty listing it
    raises [IndexError]. *)
Theorem ShopPage_init_outcome (shop : Shop) (title description : string)
    (first : Entry) (rest : list Entry) (footer : option string)
    (on_select : option nat) :
  (∃ p, ShopPage_init shop title description (first :: rest) footer on_select
          = Return p
        ∧ page_items p = first :: rest
        ∧ children p =
            [if is_category first
             then CategorySelector_init (first :: rest)
             else ItemSelector_init (first :: rest) on_select])
  ∧ ShopPage_init shop title description [] footer on_select
      = Raise IndexError.
Proof.
  split; [| done].
  unfold ShopPage_init; simpl.
  destruct (is_category first); eexists; (split; [reflexivity | done]).
Qed.

(** C1 fails as stated: a listing with a category and an item builds a
    page, and the empty listing fails with an exception that is not an
    [InvalidListingError]. *)
Lemma ShopPage_init_mixed_or_empty :
  let listing := [Category (tools 1%positive); Item hammer] in
  mixed listing = true
  ∧ homogeneous listing = false
  ∧ (∃ p, ShopPage_init general_store "Shop" "Welcome" listing None None
            = Return p)
  ∧ (∃ e, ShopPage_init general_store "Shop" "Welcome" [] None None = Raise e
          ∧ exc_name e ≠ "InvalidListingError").
Proof.
  split; [reflexivity |]. split; [reflexivity |]. split.
  - eexists. reflexivity.
  - exists IndexError. split; [reflexivity | discriminate].
Qed.

(** ** The embed *)

Lemma create_embed_field shop title description items footer (k : nat) e :
  items !! k = Some e →
  embed_fields (create_embed shop title description items footer) !! k
    = Some (entry_field shop e).
Proof. intros H. simpl. by rewrite list_lookup_fmap, H. Qed.

(** C6, as the code has it: the rule under the description of an item is
    one dash longer than the description. *)
Theorem embed_field_of_entry (shop : Shop) (title description : string)
    (items : list Entry) (footer : option string) (on_select : option nat)
    (p : ShopPage) (k : nat) (e : Entry) :
  ShopPage_init shop title description items footer on_select = Return p →
  items !! k = Some e →
  ∃ fld, embed_fields (page_embed p) !! k = Some fld
    ∧ field_inline fld = false
    ∧ match e with
      | Item i =>
          field_name fld =
            or_empty (item_icon i) +:+ " " +:+ item_name i +:+ " | `"
              +:+ format_comma_d (item_price i) +:+ "` " +:+ shop_currency shop
          ∧ ∃ rule,
              all_dashes rule = true
              ∧ len rule = len (item_description i) + 1
              ∧ field_value fld =
                  "*" +:+ item_description i +:+ "*" +:+ newline
                    +:+ rule +:+ newline
                    +:+ join newline (map (λ x, "> " +:+ x) (item_fields i))
      | Category c =>
          field_name fld = or_empty (category_icon c) +:+ " " +:+ category_name c
          ∧ field_value fld = or_empty (category_description c)
      end.
Proof.
  intros Hinit Hk.
  apply ShopPage_init_fields in Hinit as (_ & _ & _ & _ & _ & ->).
  exists (entry_field shop e). split; [by apply create_embed_field |].
  destruct e as [i | c];
    cbn [entry_field field_name field_value field_inline];
    (split; [done |]).
  - split; [done |].
    exists (str_repeat (len (item_description i) + 1) "-").
    split; [apply str_repeat_all_dashes |].
    split; [apply len_str_repeat_dash |].
    unfold item_body. by rewrite !str_app_assoc.
  - done.
Qed.

Lemma embed_field_of_entry_witness :
  ShopPage_init general_store "Tools" "All tools" [Item hammer] None None
    = Return
        {| page_shop := general_store;
           page_title := "Tools";
           page_items := [Item hammer];
           page_description := "All tools";
           page_footer := None;
           page_embed :=
             create_embed general_store "Tools" "All tools" [Item hammer] None;
           children := [ItemSelector_init [Item hammer] None] |}
  ∧ [Item hammer] !! 0%nat = Some (Item hammer)
  ∧ ∃ fld,
      embed_fields
        (create_embed general_store "Tools" "All tools" [Item hammer] None)
        !! 0%nat = Some fld
      ∧ field_inline fld = false
      ∧ field_name fld = " Hammer | `50` coins"
      ∧ ∃ rule, all_dashes rule = true
          ∧ len rule = 4
          ∧ field_value fld =
              "*abc*" +:+ newline +:+ rule +:+ newline
                +:+ "> x" +:+ newline +:+ "> y".
Proof.
  split; [reflexivity |]. split; [reflexivity |].
  exact (embed_field_of_entry general_store "Tools" "All tools" [Item hammer]
           None None _ 0 (Item hammer) eq_refl eq_refl).
Defined.

(** C6 fails as stated: the body of the field of an item whose
    description has three characters has no rule of three characters
    between the description and the extra fields. *)
Lemma item_body_rule_length :
  ¬ ∃ rule,
      len rule = len (item_description hammer)
      ∧ field_value (entry_field general_store (Item hammer)) =
          "*" +:+ item_description hammer +:+ "*" +:+ newline
            +:+ rule +:+ newline
            +:+ join newline (map (λ x, "> " +:+ x) (item_fields hammer)).
Proof.
  intros (rule & Hlen & Heq).
  apply (f_equal len) in Heq.
  rewrite !len_app, Hlen in Heq.
  vm_compute in Heq. discriminate.
Qed.

(** The rule counts code points, not bytes: under a description of one
    code point of two bytes there are two dashes. *)
Example item_body_code_points :
  String.length (item_description cafe) = 2
  ∧ len (item_description cafe) = 1
  ∧ item_body cafe =
      "*" +:+ item_description cafe +:+ "*" +:+ newline
        +:+ "--" +:+ newline.
Proof. repeat split. Qed.

(** C7: the label of an item of price 1234 in a shop whose currency is
    gold holds [1,234] and, after it, [gold]. *)
Theorem price_label_1234_gold (shop : Shop) (i : ShopItem) :
  item_price i = 1234%Z →
  shop_currency shop = "gold" →
  contains (field_name (entry_field shop (Item i))) "1,234"
  ∧ contains (field_name (entry_field shop (Item i))) "gold"
  ∧ ∃ before between,
      field_name (entry_field shop (Item i))
        = before +:+ "1,234" +:+ between +:+ "gold".
Proof.
  intros Hprice Hcur. simpl. unfold item_label. rewrite Hprice, Hcur.
  change (format_comma_d 1234) with "1,234".
  set (pre := or_empty (item_icon i) +:+ " " +:+ item_name i +:+ " | `").
  assert (Hshape :
    or_empty (item_icon i) +:+ " " +:+ item_name i +:+ " | `"
      +:+ "1,234" +:+ "` " +:+ "gold" = pre +:+ "1,234" +:+ "` " +:+ "gold").
  { unfold pre. by rewrite !str_app_assoc. }
  rewrite Hshape. repeat split.
  - exists pre, "` gold". done.
  - exists (pre +:+ "1,234` "), "". by rewrite !str_app_assoc.
  - exists pre, "` ". done.
Qed.

Lemma price_label_1234_gold_witness :
  item_price sword = 1234%Z
  ∧ shop_currency gold_shop = "gold"
  ∧ contains (field_name (entry_field gold_shop (Item sword))) "1,234"
  ∧ contains (field_name (entry_field gold_shop (Item sword))) "gold"
  ∧ ∃ before between,
      field_name (entry_field gold_shop (Item sword))
        = before +:+ "1,234" +:+ between +:+ "gold".
Proof.
  split; [reflexivity |]. split; [reflexivity |].
  apply (price_label_1234_gold gold_shop sword); reflexivity.
Defined.

(** ** navigate and go_back *)

Lemma back_buttons_add_back cs h :
  back_buttons (cs ++ [BackButton h]) = back_buttons cs ++ [BackButton h].
Proof. unfold back_buttons. by rewrite List.filter_app. Qed.

Lemma ensure_back_button_children h p :
  children (ensure_back_button h p) = children p
  ∨ (back_buttons (children p) = []
     ∧ children (ensure_back_button h p) = children p ++ [BackButton h]).
Proof.
  unfold ensure_back_button.
  destruct (back_buttons (children p)) eqn:Hb; [right | left]; done.
Qed.

Lemma ensure_back_button_back_buttons h p :
  back_buttons (children (ensure_back_button h p)) =
    match back_buttons (children p) with
    | [] => [BackButton h]
    | b :: bs => b :: bs
    end.
Proof.
  unfold ensure_back_button.
  destruct (back_buttons (children p)) eqn:Hb; [| done].
  simpl. by rewrite back_buttons_add_back, Hb.
Qed.

Lemma ensure_back_button_again h1 h2 p :
  ensure_back_button h2 (ensure_back_button h1 p) = ensure_back_button h1 p.
Proof.
  unfold ensure_back_button at 1.
  rewrite ensure_back_button_back_buttons.
  by destruct (back_buttons (children p)).
Qed.

Lemma navigate_lookup_to h σ :
  (navigate h σ).2 !! to_page h = ensure_back_button h <$> σ !! to_page h.
Proof. apply lookup_alter_eq. Qed.

Lemma navigate_lookup_other h σ r :
  r ≠ to_page h → (navigate h σ).2 !! r = σ !! r.
Proof. intros Hr. simpl. by rewrite lookup_alter_ne. Qed.

Lemma navigate_again h1 h2 σ :
  to_page h2 = to_page h1 →
  (navigate h2 (navigate h1 σ).2).2 = (navigate h1 σ).2.
Proof.
  intros Hto. apply map_eq. intros r.
  destruct (decide (r = to_page h1)) as [-> | Hr].
  - rewrite <- Hto at 1. rewrite navigate_lookup_to, Hto, navigate_lookup_to.
    destruct (σ !! to_page h1); simpl; [| done].
    by rewrite ensure_back_button_again.
  - rewrite navigate_lookup_other; [done | by rewrite Hto].
Qed.

Lemma navigate_times_succ n h σ :
  navigate_times (S n) h σ = (navigate h σ).2.
Proof.
  revert σ. induction n as [|n IH]; intros σ; [done |].
  change (navigate_times (S (S n)) h σ)
    with (navigate_times (S n) h (navigate h σ).2).
  rewrite IH. by apply navigate_again.
Qed.

(** The pages of every store the constructor and [navigate] build have
    at most one back button. *)
Lemma reachable_one_back_button σ r p :
  reachable σ → σ !! r = Some p → length (back_buttons (children p)) ≤ 1.
Proof.
  intros Hreach. revert r p.
  induction Hreach as [| σ shop title description items footer on_select _ IH
                       | σ h _ IH]; intros r p Hp.
  - by rewrite lookup_empty in Hp.
  - unfold ShopPage_new in Hp.
    destruct (ShopPage_init shop title description items footer on_select)
      as [q | e] eqn:Hq; simpl in Hp; [| by eapply IH].
    destruct (decide (r = fresh (dom σ))) as [-> | Hr].
    + rewrite lookup_insert_eq in Hp. injection Hp as <-.
      apply ShopPage_init_children in Hq as [-> _]. simpl. lia.
    + rewrite lookup_insert_ne in Hp by done. by eapply IH.
  - destruct (decide (r = to_page h)) as [-> | Hr].
    + rewrite navigate_lookup_to in Hp.
      destruct (σ !! to_page h) as [q |] eqn:Hq; [| done].
      injection Hp as <-. rewrite ensure_back_button_back_buttons.
      apply IH in Hq. destruct (back_buttons (children q)); simpl in *; lia.
    + rewrite navigate_lookup_other in Hp by done. by eapply IH.
Qed.

(** C3: on a page with at most one back button, as every page the code
    builds is, any number of calls of [navigate], one at least, leaves
    exactly one back button. *)
Theorem navigate_one_back_button (h : NavigationHandler)
    (σ : gmap ref ShopPage) (p : ShopPage) (n : nat) :
  σ !! to_page h = Some p →
  length (back_buttons (children p)) ≤ 1 →
  1 ≤ n →
  ∃ p', navigate_times n h σ !! to_page h = Some p'
        ∧ length (back_buttons (children p')) = 1.
Proof.
  intros Hp Hone Hn. destruct n as [|n]; [lia |].
  rewrite navigate_times_succ, navigate_lookup_to, Hp. simpl.
  eexists. split; [reflexivity |].
  rewrite ensure_back_button_back_buttons.
  destruct (back_buttons (children p)); simpl in *; lia.
Qed.

Lemma navigate_one_back_button_witness :
  two_pages !! to_page top_to_tools = Some tools_page
  ∧ length (back_buttons (children tools_page)) ≤ 1
  ∧ 1 ≤ 2
  ∧ ∃ p', navigate_times 2 top_to_tools two_pages !! to_page top_to_tools
            = Some p'
          ∧ length (back_buttons (children p')) = 1.
Proof.
  split; [reflexivity |]. split; [simpl; lia |]. split; [lia |].
  apply (navigate_one_back_button top_to_tools two_pages tools_page 2);
    [reflexivity | simpl; lia | lia].
Defined.

(** C10, as the code has it: [navigate] returns [to_page]; every page
    that is not the object [to_page] is as before, so [from_page] is
    when it is another object; of [to_page] itself only the children can
    change, by one back button of this handler added at the end. *)
Theorem navigate_frame (h : NavigationHandler) (σ : gmap ref ShopPage) :
  (navigate h σ).1 = to_page h
  ∧ dom (navigate h σ).2 = dom σ
  ∧ (∀ r, r ≠ to_page h → (navigate h σ).2 !! r = σ !! r)
  ∧ (∀ p, σ !! to_page h = Some p →
       ∃ p', (navigate h σ).2 !! to_page h = Some p'
         ∧ page_shop p' = page_shop p
         ∧ page_title p' = page_title p
         ∧ page_items p' = page_items p
         ∧ page_description p' = page_description p
         ∧ page_footer p' = page_footer p
         ∧ page_embed p' = page_embed p
         ∧ (children p' = children p
            ∨ children p' = children p ++ [BackButton h])).
Proof.
  split; [done |]. split; [apply dom_alter_L |].
  split; [intros r Hr; by apply navigate_lookup_other |].
  intros p Hp. rewrite navigate_lookup_to, Hp. simpl.
  eexists. split; [reflexivity |].
  unfold ensure_back_button.
  destruct (back_buttons (children p)); simpl; auto 10.
Qed.

(** C10 fails as stated: when the two pages of a handler are one object,
    [navigate] changes [from_page]. *)
Lemma navigate_changes_from_page :
  (children <$> (navigate top_to_top two_pages).2 !! from_page top_to_top)
    = Some (children top_page ++ [BackButton top_to_top])
  ∧ (navigate top_to_top two_pages).2 !! from_page top_to_top
      ≠ two_pages !! from_page top_to_top.
Proof. split; [reflexivity | discriminate]. Qed.

(** C4, as the code has it: [go_back] after [navigate] returns the
    reference [from_page] given to the handler, and the object it names
    is as before both calls when it is not the object [to_page], or when
    [to_page] had a back button already. *)
Theorem go_back_after_navigate (h : NavigationHandler)
    (σ : gmap ref ShopPage) :
  (from_page h ≠ to_page h
   ∨ ∃ p, σ !! to_page h = Some p ∧ back_buttons (children p) ≠ []) →
  go_back h = from_page h
  ∧ (navigate h σ).2 !! go_back h = σ !! from_page h.
Proof.
  intros Hcase. split; [done |]. unfold go_back.
  destruct (decide (from_page h = to_page h)) as [Heq | Hne].
  - destruct Hcase as [Hne | (p & Hp & Hb)]; [done |].
    rewrite Heq, navigate_lookup_to, Hp. simpl. f_equal.
    unfold ensure_back_button. by destruct (back_buttons (children p)).
  - by apply navigate_lookup_other.
Qed.

Lemma go_back_after_navigate_witness :
  (from_page top_to_tools ≠ to_page top_to_tools
   ∨ ∃ p, two_pages !! to_page top_to_tools = Some p
          ∧ back_buttons (children p) ≠ [])
  ∧ go_back top_to_tools = from_page top_to_tools
  ∧ (navigate top_to_tools two_pages).2 !! go_back top_to_tools
      = two_pages !! from_page top_to_tools.
Proof.
  assert (Hcase : from_page top_to_tools ≠ to_page top_to_tools
                  ∨ ∃ p, two_pages !! to_page top_to_tools = Some p
                         ∧ back_buttons (children p) ≠ []).
  { left. simpl. lia. }
  split; [exact Hcase |].
  exact (go_back_after_navigate top_to_tools two_pages Hcase).
Defined.

(** C4 fails as stated: [go_back] after [navigate] returns a page that
    [navigate] has modified when the handler was built with one page
    twice. *)
Lemma go_back_returns_modified_page :
  let σ' := (navigate top_to_top two_pages).2 in
  go_back top_to_top = from_page top_to_top
  ∧ two_pages !! from_page top_to_top = Some top_page
  ∧ σ' !! go_back top_to_top ≠ Some top_page.
Proof. repeat split; discriminate. Qed.

(** Pressing a back button shows the page that [go_back] returns, when
    the call of the platform returns. *)
Lemma BackButton_callback_shows (platform : Platform)
    (h : NavigationHandler) (w : World) (q : ShopPage) :
  pages w !! from_page h = Some q →
  platform (EditMessage (page_embed q) (from_page h)) w = None →
  BackButton_callback platform h w =
    Some (Return tt,
          {| pages := pages w;
             session := {| shown_view := from_page h;
                           shown_embed := page_embed q;
                           sent := sent (session w) |} |}).
Proof.
  intros Hq Hcall.
  unfold BackButton_callback, bind, deref, go_back, edit_message.
  by rewrite Hq, Hcall.
Qed.

(** C5: a page that got its back button from a first handler keeps that
    one button when a second handler navigates to it, and the button
    still leads to the page the first handler came from: that page is
    what pressing it shows, on every platform whose call returns. *)
Theorem back_button_of_first_handler (h1 h2 : NavigationHandler)
    (σ : gmap ref ShopPage) (p : ShopPage) :
  to_page h2 = to_page h1 →
  σ !! to_page h1 = Some p →
  back_buttons (children p) = [] →
  ∃ p', (navigate h2 (navigate h1 σ).2).2 !! to_page h2 = Some p'
    ∧ back_buttons (children p') = [BackButton h1]
    ∧ go_back h1 = from_page h1
    ∧ ∀ platform w q,
        pages w !! from_page h1 = Some q →
        platform (EditMessage (page_embed q) (from_page h1)) w = None →
        ∃ w', BackButton_callback platform h1 w = Some (Return tt, w')
              ∧ shown_view (session w') = from_page h1
              ∧ shown_embed (session w') = page_embed q.
Proof.
  intros Hto Hp Hb.
  rewrite navigate_again by done.
  rewrite Hto, navigate_lookup_to, Hp. simpl.
  eexists. split; [reflexivity |].
  split; [by rewrite ensure_back_button_back_buttons, Hb |].
  split; [done |].
  intros platform w q Hq Hcall.
  rewrite (BackButton_callback_shows platform h1 w q Hq Hcall).
  eexists. split; [reflexivity | done].
Qed.

Lemma back_button_of_first_handler_witness :
  to_page other_to_tools = to_page top_to_tools
  ∧ three_pages !! to_page top_to_tools = Some tools_page
  ∧ back_buttons (children tools_page) = []
  ∧ ∃ p', (navigate other_to_tools (navigate top_to_tools three_pages).2).2
            !! to_page other_to_tools = Some p'
    ∧ back_buttons (children p') = [BackButton top_to_tools]
    ∧ go_back top_to_tools = from_page top_to_tools
    ∧ ∀ platform w q,
        pages w !! from_page top_to_tools = Some q →
        platform (EditMessage (page_embed q) (from_page top_to_tools)) w
          = None →
        ∃ w', BackButton_callback platform top_to_tools w
                = Some (Return tt, w')
              ∧ shown_view (session w') = from_page top_to_tools
              ∧ shown_embed (session w') = page_embed q.
Proof.
  split; [reflexivity |]. split; [reflexivity |]. split; [reflexivity |].
  apply (back_button_of_first_handler top_to_tools other_to_tools
           three_pages tools_page); reflexivity.
Defined.

(** ** Selections *)

Lemma matching_chosen (l : list Entry) (v : string) (vs : list string)
    (w : World) :
  matching l (v :: vs) w
    = Some (Return (List.filter (λ e, String.eqb (entry_id e) v) l), w).
Proof. by destruct l. Qed.

Lemma filter_id_absent (l : list Entry) (v : string) :
  v ∉ entry_id <$> l →
  List.filter (λ e, String.eqb (entry_id e) v) l = [].
Proof.
  induction l as [|e l IH]; intros Hv; [done |].
  rewrite fmap_cons, not_elem_of_cons in Hv. destruct Hv as [Hne Hv].
  simpl. destruct (String.eqb_spec (entry_id e) v) as [Heq | _].
  - by subst.
  - by apply IH.
Qed.

Lemma filter_id_present (l : list Entry) (v : string) :
  v ∈ entry_id <$> l →
  ∃ before it after,
    l = before ++ it :: after
    ∧ (v ∉ entry_id <$> before)
    ∧ entry_id it = v
    ∧ List.filter (λ e, String.eqb (entry_id e) v) l
        = it :: List.filter (λ e, String.eqb (entry_id e) v) after.
Proof.
  induction l as [|e l IH]; intros Hv; [by apply elem_of_nil in Hv |].
  destruct (String.eqb_spec (entry_id e) v) as [Heq | Hne].
  - exists [], e, l. simpl.
    rewrite (proj2 (String.eqb_eq _ _) Heq).
    repeat split; [apply not_elem_of_nil | done].
  - rewrite fmap_cons, elem_of_cons in Hv.
    destruct Hv as [Heq | Hv]; [by subst |].
    destruct (IH Hv) as (before & it & after & -> & Hbefore & Hid & Hfilter).
    exists (e :: before), it, after.
    split; [done |]. split.
    { rewrite fmap_cons, not_elem_of_cons. split; [done | exact Hbefore]. }
    split; [done |].
    simpl. rewrite (proj2 (String.eqb_neq _ _) Hne). exact Hfilter.
Qed.

(** C2, as the code has it: a selection of an id that no element of the
    listing has makes the callback of either selector raise, and leaves
    the world, its pages and what the session shows, as it was; the
    exception of [ItemSelector.callback] is [IndexError]. *)
Theorem unknown_selection_raises (platform : Platform)
    (run_handler : nat → Entry → M unit)
    (l : list Entry) (on_select : option nat) (view : ref) (v : string)
    (vs : list string) (w : World) :
  v ∉ entry_id <$> l →
  callback platform run_handler (ItemSelector_init l on_select) view (v :: vs) w
    = Some (Raise IndexError, w)
  ∧ ∃ exc, callback platform run_handler (CategorySelector_init l) view (v :: vs) w
             = Some (Raise exc, w).
Proof.
  intros Hv. split.
  - cbn [callback ItemSelector_init].
    unfold ItemSelector_callback, bind. rewrite matching_chosen.
    by rewrite filter_id_absent.
  - exists IndexError. cbn [callback CategorySelector_init].
    unfold CategorySelector_callback, bind. rewrite matching_chosen.
    by rewrite filter_id_absent.
Qed.

Lemma unknown_selection_raises_witness :
  ("zz" ∉ entry_id <$> [Item hammer; Item sword])
  ∧ callback reliable no_handler (ItemSelector_init [Item hammer; Item sword] None)
      2%positive ["zz"] on_top_page = Some (Raise IndexError, on_top_page)
  ∧ ∃ exc, callback reliable no_handler
             (CategorySelector_init [Item hammer; Item sword]) 2%positive
             ["zz"] on_top_page = Some (Raise exc, on_top_page).
Proof.
  assert (Hv : "zz" ∉ entry_id <$> [Item hammer; Item sword]).
  { apply (bool_decide_unpack _). vm_compute. exact I. }
  split; [exact Hv |].
  exact (unknown_selection_raises reliable no_handler [Item hammer; Item sword]
           None 2%positive "zz" [] on_top_page Hv).
Defined.

(** C2 fails as stated: the exception of a selection of an unknown id is
    not an [UnknownSelectionError]. *)
Lemma unknown_selection_exception :
  ∃ e, callback reliable no_handler (ItemSelector_init [Item hammer; Item sword] None)
         2%positive ["zz"] on_top_page = Some (Raise e, on_top_page)
       ∧ exc_name e ≠ "UnknownSelectionError".
Proof. exists IndexError. split; [reflexivity | discriminate]. Qed.

(** C8: when an element of the listing has the chosen id, the callback of
    an [ItemSelector] is the call of its [on_select], the coroutine it was
    built with or [on_select_default] when it was built with none, on the
    first element of the listing with that id. *)
Theorem ItemSelector_callback_resolves (platform : Platform)
    (run_handler : nat → Entry → M unit)
    (items : list Entry) (on_select : option nat) (view : ref) (v : string)
    (vs : list string) (w : World) :
  v ∈ entry_id <$> items →
  ∃ before it after,
    items = before ++ it :: after
    ∧ (v ∉ entry_id <$> before)
    ∧ entry_id it = v
    ∧ callback platform run_handler (ItemSelector_init items on_select) view
        (v :: vs) w
      = match on_select with
        | Some h => run_handler h it w
        | None =>
            send_message platform
              ("Succesfully purchased " +:+ entry_name it) w
        end.
Proof.
  intros Hv.
  destruct (filter_id_present items v Hv)
    as (before & it & after & Hitems & Hbefore & Hid & Hfilter).
  exists before, it, after. repeat (split; [done |]).
  cbn [callback ItemSelector_init].
  unfold ItemSelector_callback, bind. rewrite matching_chosen, Hfilter.
  by destruct on_select.
Qed.

Lemma ItemSelector_callback_resolves_witness :
  ("i2" ∈ entry_id <$> [Item hammer; Item sword])
  ∧ ∃ before it after,
      [Item hammer; Item sword] = before ++ it :: after
      ∧ ("i2" ∉ entry_id <$> before)
      ∧ entry_id it = "i2"
      ∧ callback reliable no_handler (ItemSelector_init [Item hammer; Item sword] None)
          2%positive ["i2"] on_top_page
        = send_message reliable
            ("Succesfully purchased " +:+ entry_name it) on_top_page.
Proof.
  assert (Hv : "i2" ∈ entry_id <$> [Item hammer; Item sword]).
  { apply (bool_decide_unpack _). vm_compute. exact I. }
  split; [exact Hv |].
  exact (ItemSelector_callback_resolves reliable
           no_handler [Item hammer; Item sword]
           None 2%positive "i2" [] on_top_page Hv).
Defined.

(** C9: [CategorySelector.callback] raises [ValueError] from no listing,
    no selection and no world, on no platform: the element the guard
    tests is truthy. *)
Theorem CategorySelector_callback_no_ValueError (platform : Platform)
    (categories : list Entry) (view : ref) (values : list string)
    (w w' : World) (msg : string) :
  CategorySelector_callback platform categories view values w
    ≠ Some (Raise (ValueError msg), w').
Proof.
  unfold CategorySelector_callback, bind.
  destruct (matching categories values w) as [[[found | e] w1] |] eqn:Hm;
    [| | done].
  - unfold index0 at 1.
    destruct (found !! 0%nat) as [selected |]; [| done].
    cbn [ret raise truthy negb].
    destruct selected as [i | c]; cbn [navigate_to raise ret]; [done |].
    unfold with_pages, deref. cbn [pages].
    destruct (navigate _ (pages w1)) as [page σ'] eqn:Hnav. cbn [pages].
    destruct (σ' !! page) as [p |]; [| done].
    unfold edit_message.
    match goal with |- context [platform ?call ?w0] =>
      destruct (platform call w0) end; done.
  - intros [= -> ->].
    unfold matching in Hm. destruct categories; [done |].
    unfold bind, index0 in Hm. by destruct (values !! 0%nat).
Qed.

(** ** The scenario of the two pages *)

Example build_two_pages :
  ShopPage_new general_store "Tools" "All tools" [Item hammer] None None ∅
    = (Return 1%positive, <[1%positive := tools_page]> ∅)
  ∧ ShopPage_new general_store "Shop" "Welcome"
      [Category (tools 1%positive)] None None (<[1%positive := tools_page]> ∅)
    = (Return 2%positive, two_pages).
Proof. split; reflexivity. Qed.

Example two_pages_reachable : reachable two_pages.
Proof.
  pose proof build_two_pages as [H1 H2].
  replace two_pages with
    (ShopPage_new general_store "Shop" "Welcome"
       [Category (tools 1%positive)] None None
       (<[1%positive := tools_page]> ∅)).2 by (by rewrite H2).
  apply reachable_new.
  replace (<[1%positive := tools_page]> ∅) with
    (ShopPage_new general_store "Tools" "All tools" [Item hammer] None None
       ∅).2 by (by rewrite H1).
  apply reachable_new, reachable_empty.
Qed.

(** Choosing the category on the top page shows the page of the tools,
    which now has one back button; pressing it shows the top page, which
    is as it was built. *)
Example select_then_back :
  let w1 :=
    {| pages := (navigate top_to_tools two_pages).2;
       session := {| shown_view := 1%positive;
                     shown_embed := page_embed tools_page;
                     sent := [] |} |} in
  let w2 :=
    {| pages := pages w1;
       session := {| shown_view := 2%positive;
                     shown_embed := page_embed top_page;
                     sent := [] |} |} in
  CategorySelector_callback reliable [Category (tools 1%positive)]
    2%positive ["c1"] on_top_page = Some (Return tt, w1)
  ∧ (back_buttons ∘ children <$> pages w1 !! 1%positive)
      = Some [BackButton top_to_tools]
  ∧ BackButton_callback reliable top_to_tools w1 = Some (Return tt, w2)
  ∧ pages w2 !! 2%positive = Some top_page.
Proof. repeat split; vm_compute; reflexivity. Qed.

(** ** The format of prices *)

Lemma strip_commas_app (a b : string) :
  strip_commas (a +:+ b) = strip_commas a +:+ strip_commas b.
Proof.
  unfold strip_commas. induction a as [|x a IH]; [done |].
  rewrite str_app_cons. cbn [String.list_ascii_of_string List.filter].
  destruct (negb (Ascii.eqb x ","));
    cbn [String.string_of_list_ascii]; rewrite ?str_app_cons, IH; done.
Qed.

Lemma filter_group_rev (room : nat) (ds : list ascii) :
  List.filter (λ c, negb (Ascii.eqb c ",")) (group_rev room ds)
    = List.filter (λ c, negb (Ascii.eqb c ",")) ds.
Proof.
  revert room. induction ds as [|d ds IH]; intros room; [done |].
  destruct room as [|room]; cbn [group_rev List.filter].
  - change (negb (Ascii.eqb "," ",")) with false. cbn iota.
    by rewrite IH.
  - by rewrite IH.
Qed.

Lemma strip_commas_group_thousands (digits : string) :
  strip_commas (group_thousands digits) = strip_commas digits.
Proof.
  unfold strip_commas, group_thousands.
  rewrite String.list_ascii_of_string_of_list_ascii.
  rewrite List.filter_rev, filter_group_rev, List.filter_rev.
  by rewrite rev_involutive.
Qed.

Lemma strip_commas_digits (d : Decimal.uint) :
  strip_commas (NilEmpty.string_of_uint d) = NilEmpty.string_of_uint d.
Proof.
  unfold strip_commas. induction d as [|d IH|d IH|d IH|d IH|d IH|d IH|d IH
                                       |d IH|d IH|d IH]; [done | ..];
    cbn [NilEmpty.string_of_uint String.list_ascii_of_string List.filter];
    cbn [Ascii.eqb Bool.eqb negb andb String.string_of_list_ascii];
    by rewrite IH.
Qed.

Lemma strip_commas_decimal (n : N) : strip_commas (decimal n) = decimal n.
Proof.
  unfold decimal, NilZero.string_of_uint.
  destruct (N.to_uint n); try apply strip_commas_digits. done.
Qed.

(** X1: the commas are all that the format adds: without them the
    formatted price is the minus sign of a negative price and the decimal
    digits of its absolute value. *)
Theorem format_comma_d_strip (n : Z) :
  strip_commas (format_comma_d n)
    = (if (n <? 0)%Z then "-" else "") +:+ decimal (Z.to_N (Z.abs n)).
Proof.
  unfold format_comma_d. rewrite strip_commas_app.
  rewrite strip_commas_group_thousands.
  change (NilZero.string_of_uint (N.to_uint (Z.to_N (Z.abs n))))
    with (decimal (Z.to_N (Z.abs n))).
  rewrite strip_commas_decimal. by destruct (n <? 0)%Z.
Qed.

(** X2: a price from 0 to 999 is formatted as its decimal digits, with
    no comma. *)
Theorem format_comma_d_small (n : Z) :
  (0 ≤ n < 1000)%Z →
  format_comma_d n = decimal (Z.to_N n).
Proof.
  intros Hn.
  assert (Hall : forallb (λ k, String.eqb (format_comma_d (Z.of_nat k))
                                 (decimal (Z.to_N (Z.of_nat k))))
                   (seq 0 1000) = true) by (vm_compute; reflexivity).
  rewrite List.forallb_forall in Hall.
  specialize (Hall (Z.to_nat n)).
  rewrite Z2Nat.id in Hall by lia.
  apply String.eqb_eq, Hall, List.in_seq. lia.
Qed.

Lemma format_comma_d_small_witness :
  (0 ≤ 50 < 1000)%Z ∧ format_comma_d 50 = decimal (Z.to_N 50).
Proof.
  split; [lia |]. apply (format_comma_d_small 50). lia.
Defined.

(** ** What a built page offers *)

Lemma select_options_values (l : list Entry) :
  option_value <$> select_options l = entry_id <$> l.
Proof. unfold select_options. induction l; [done | by f_equal/=]. Qed.

Lemma ShopPage_init_selector shop title description items footer on_select p :
  ShopPage_init shop title description items footer on_select = Return p →
  ∃ first rest,
    items = first :: rest
    ∧ children p =
        [if is_category first
         then CategorySelector_init items
         else ItemSelector_init items on_select].
Proof.
  unfold ShopPage_init. destruct items as [|first rest]; [done |].
  cbn [lookup list_lookup]. intros Hp. exists first, rest. split; [done |].
  destruct (is_category first); by injection Hp as <-.
Qed.

(** X3: the one control of a page that [ShopPage.__init__] has built
    offers one option for each element of the listing, in the order of
    the listing, whose value, label and emoji are the id, the name and
    the icon of the element; the embed has one field for each element. *)
Theorem page_options_follow_listing (shop : Shop)
    (title description : string) (items : list Entry)
    (footer : option string) (on_select : option nat) (p : ShopPage) :
  ShopPage_init shop title description items footer on_select = Return p →
  ∃ selector,
    children p = [selector]
    ∧ option_value <$> control_options selector = entry_id <$> items
    ∧ option_label <$> control_options selector = entry_name <$> items
    ∧ option_emoji <$> control_options selector = entry_icon <$> items
    ∧ length (control_options selector) = length items
    ∧ length (embed_fields (page_embed p)) = length items.
Proof.
  intros Hp.
  destruct (ShopPage_init_selector _ _ _ _ _ _ _ Hp)
    as (first & rest & Hitems & Hchildren).
  apply ShopPage_init_fields in Hp as (_ & _ & _ & _ & _ & Hembed).
  eexists. split; [exact Hchildren |].
  assert (Hopts :
    control_options
      (if is_category first
       then CategorySelector_init items
       else ItemSelector_init items on_select) = select_options items)
    by (by destruct (is_category first)).
  rewrite Hopts, Hembed. unfold select_options.
  cbn [embed_fields create_embed].
  rewrite <- !list_fmap_compose, !length_map.
  repeat split; by apply list_fmap_ext.
Qed.

Lemma page_options_follow_listing_witness :
  ShopPage_init general_store "Shop" "Welcome" hub_listing None None
    = Return
        {| page_shop := general_store;
           page_title := "Shop";
           page_items := hub_listing;
           page_description := "Welcome";
           page_footer := None;
           page_embed :=
             create_embed general_store "Shop" "Welcome" hub_listing None;
           children := [CategorySelector_init hub_listing] |}
  ∧ ∃ selector,
      [CategorySelector_init hub_listing] = [selector]
      ∧ option_value <$> control_options selector = ["c1"; "c2"]
      ∧ option_label <$> control_options selector = ["Tools"; "More tools"]
      ∧ option_emoji <$> control_options selector = [None; Some "T"]
      ∧ length (control_options selector) = 2
      ∧ length
          (embed_fields
             (create_embed general_store "Shop" "Welcome" hub_listing None))
        = 2.
Proof.
  split; [reflexivity |].
  exact (page_options_follow_listing general_store "Shop" "Welcome"
           hub_listing None None _ eq_refl).
Defined.

(** ** Selections that succeed, and what the others leave *)

Lemma matching_no_value (l : list Entry) (w : World) :
  matching l [] w = Some (Return [], w)
  ∨ matching l [] w = Some (Raise IndexError, w).
Proof. destruct l; [by left | by right]. Qed.

Lemma ItemSelector_callback_no_value (platform : Platform)
    (run_handler : nat → Entry → M unit)
    (l : list Entry) (on_select : OnSelect) (w : World) :
  ItemSelector_callback platform run_handler l on_select [] w
    = Some (Raise IndexError, w).
Proof.
  unfold ItemSelector_callback, bind.
  destruct (matching_no_value l w) as [-> | ->]; done.
Qed.

Lemma CategorySelector_callback_no_value (platform : Platform)
    (l : list Entry) (view : ref) (w : World) :
  CategorySelector_callback platform l view [] w
    = Some (Raise IndexError, w).
Proof.
  unfold CategorySelector_callback, bind.
  destruct (matching_no_value l w) as [-> | ->]; done.
Qed.

(** X4: with no selected value at all, the callback of either selector
    raises [IndexError], whatever the listing and the platform, and
    leaves the world as it was. *)
Theorem no_value_raises (platform : Platform)
    (run_handler : nat → Entry → M unit)
    (l : list Entry) (on_select : OnSelect) (view : ref) (w : World) :
  ItemSelector_callback platform run_handler l on_select [] w
    = Some (Raise IndexError, w)
  ∧ CategorySelector_callback platform l view [] w
      = Some (Raise IndexError, w).
Proof.
  split.
  - apply ItemSelector_callback_no_value.
  - apply CategorySelector_callback_no_value.
Qed.

(** X5: a selector without [on_select] answers a selection in one of
    three ways, and in none of them changes a page or what the session
    shows: it raises [IndexError]; or it calls [send_message] with the
    text that names an element of the listing with the chosen id, and
    then either the call raises and nothing is sent, or it returns and
    that one message is sent. *)
Theorem default_purchase_outcome (platform : Platform)
    (run_handler : nat → Entry → M unit)
    (items : list Entry) (view : ref) (values : list string) (w : World) :
  callback platform run_handler (ItemSelector_init items None) view values w
    = Some (Raise IndexError, w)
  ∨ ∃ it, it ∈ items
      ∧ values !! 0%nat = Some (entry_id it)
      ∧ let text := "Succesfully purchased " +:+ entry_name it in
        callback platform run_handler (ItemSelector_init items None) view
          values w
        = match platform (SendMessage text) w with
          | Some cls => Some (Raise (PlatformError cls), w)
          | None => Some (Return tt, after_message w text)
          end.
Proof.
  cbn [callback ItemSelector_init].
  destruct values as [|v vs];
    [left; apply ItemSelector_callback_no_value |].
  unfold ItemSelector_callback, bind. rewrite matching_chosen.
  destruct (decide (v ∈ entry_id <$> items)) as [Hin | Hout].
  - right.
    destruct (filter_id_present items v Hin)
      as (before & it & after & -> & _ & <- & ->).
    exists it. split; [rewrite elem_of_app, elem_of_cons; auto |].
    split; [done |].
    cbn [index0 lookup list_lookup ret call_on_select].
    unfold on_select_default, send_message.
    by destruct (platform _ w).
  - left. by rewrite filter_id_absent.
Qed.

(** X6: when [CategorySelector.callback] raises, either the exception is
    an [IndexError] or an [AttributeError] of the code and the world is
    as it was, or it is the exception of the platform that left
    [edit_message]: then [navigate] has run, so the store is the one it
    leaves, with the back button on the page of the chosen category, and
    the session still shows what it showed. *)
Theorem CategorySelector_callback_raise (platform : Platform)
    (categories : list Entry) (view : ref) (values : list string)
    (w w' : World) (e : PyExc) :
  CategorySelector_callback platform categories view values w
    = Some (Raise e, w') →
  (w' = w ∧ (e = IndexError ∨ e = AttributeError))
  ∨ ∃ c cls,
      Category c ∈ categories
      ∧ values !! 0%nat = Some (category_id c)
      ∧ e = PlatformError cls
      ∧ session w' = session w
      ∧ pages w' =
          (navigate {| to_page := category_navigate_to c;
                       from_page := view |} (pages w)).2.
Proof.
  destruct values as [|v vs].
  - rewrite CategorySelector_callback_no_value.
    intros [= <- <-]. auto.
  - unfold CategorySelector_callback, bind. rewrite matching_chosen.
    destruct (decide (v ∈ entry_id <$> categories)) as [Hin | Hout];
      [| rewrite filter_id_absent by done; intros [= <- <-]; auto].
    destruct (filter_id_present categories v Hin)
      as (before & it & after & -> & _ & <- & ->).
    cbn [index0 lookup list_lookup ret raise truthy negb].
    destruct it as [i | c]; cbn [navigate_to raise ret];
      [intros [= <- <-]; auto |].
    unfold with_pages, deref. cbn [pages navigate].
    match goal with |- context [alter ?f ?k ?m !! ?k'] =>
      destruct (alter f k m !! k') as [p |] end; [| done].
    unfold edit_message.
    match goal with |- context [platform ?call ?w0] =>
      destruct (platform call w0) as [cls |] end; [| done].
    intros [= <- <-]. right. exists c, cls.
    split; [rewrite elem_of_app, elem_of_cons; auto |].
    repeat split; done.
Qed.

Lemma CategorySelector_callback_raise_witness :
  let after_navigate :=
    {| pages := (navigate top_to_tools two_pages).2;
       session := session on_top_page |} in
  CategorySelector_callback offline [Category (tools 1%positive)]
    2%positive ["c1"] on_top_page
    = Some (Raise (PlatformError "HTTPException"), after_navigate)
  ∧ ((after_navigate = on_top_page
      ∧ (PlatformError "HTTPException" = IndexError
         ∨ PlatformError "HTTPException" = AttributeError))
     ∨ ∃ c cls,
         Category c ∈ [Category (tools 1%positive)]
         ∧ ["c1"] !! 0%nat = Some (category_id c)
         ∧ PlatformError "HTTPException" = PlatformError cls
         ∧ session after_navigate = session on_top_page
         ∧ pages after_navigate =
             (navigate {| to_page := category_navigate_to c;
                          from_page := 2%positive |}
                (pages on_top_page)).2).
Proof.
  intros after_navigate. split; [reflexivity |].
  apply (CategorySelector_callback_raise offline
           [Category (tools 1%positive)] 2%positive ["c1"] on_top_page
           after_navigate (PlatformError "HTTPException")).
  reflexivity.
Defined.

(** X7: in a mixed listing behind a [CategorySelector], choosing the id
    of an item, when no category before it has that id, raises
    [AttributeError], on every platform, and leaves the world as it
    was. *)
Theorem CategorySelector_callback_on_item (platform : Platform)
    (before after : list Entry) (i : ShopItem) (view : ref)
    (vs : list string) (w : World) :
  item_id i ∉ entry_id <$> before →
  CategorySelector_callback platform (before ++ Item i :: after) view
    (item_id i :: vs) w = Some (Raise AttributeError, w).
Proof.
  intros Hbefore.
  unfold CategorySelector_callback, bind. rewrite matching_chosen.
  rewrite List.filter_app, filter_id_absent by done.
  cbn [app List.filter entry_id]. by rewrite String.eqb_refl.
Qed.

Lemma CategorySelector_callback_on_item_witness :
  (item_id hammer ∉ entry_id <$> [Category (tools 1%positive)])
  ∧ CategorySelector_callback reliable
      ([Category (tools 1%positive)] ++ Item hammer :: []) 2%positive
      (item_id hammer :: []) on_top_page
    = Some (Raise AttributeError, on_top_page).
Proof.
  assert (Hv : item_id hammer ∉ entry_id <$> [Category (tools 1%positive)]).
  { apply (bool_decide_unpack _). vm_compute. exact I. }
  split; [exact Hv |].
  exact (CategorySelector_callback_on_item reliable
           [Category (tools 1%positive)] [] hammer 2%positive [] on_top_page
           Hv).
Defined.

Lemma CategorySelector_callback_selected (platform : Platform)
    (l : list Entry) (view : ref) (v : string) (vs : list string)
    (w : World) (c : ShopCategory) (q : ShopPage) :
  List.filter (λ e, String.eqb (entry_id e) v) l !! 0%nat
    = Some (Category c) →
  pages w !! category_navigate_to c = Some q →
  platform (EditMessage (page_embed q) (category_navigate_to c))
    {| pages := (navigate {| to_page := category_navigate_to c;
                             from_page := view |} (pages w)).2;
       session := session w |} = None →
  CategorySelector_callback platform l view (v :: vs) w
  = Some (Return tt,
          showing w
            (navigate {| to_page := category_navigate_to c;
                         from_page := view |} (pages w)).2
            (category_navigate_to c) (page_embed q)).
Proof.
  intros Hsel Hq Hcall.
  assert (Hembed : page_embed
            (ensure_back_button {| to_page := category_navigate_to c;
                                   from_page := view |} q) = page_embed q).
  { unfold ensure_back_button. by destruct (back_buttons (children q)). }
  unfold CategorySelector_callback, bind. rewrite matching_chosen.
  unfold index0 at 1. rewrite Hsel.
  cbn [ret truthy negb navigate_to].
  unfold with_pages, deref. cbn [navigate pages to_page].
  rewrite lookup_alter_eq, Hq. cbn [fmap option_fmap option_map].
  unfold edit_message, showing. rewrite Hembed.
  cbn [navigate snd to_page] in Hcall. by rewrite Hcall.
Qed.

Lemma filter_id_first (before after : list Entry) (e : Entry) :
  entry_id e ∉ entry_id <$> before →
  List.filter (λ x, String.eqb (entry_id x) (entry_id e))
    (before ++ e :: after) !! 0%nat = Some e.
Proof.
  intros Hbefore. rewrite List.filter_app, filter_id_absent by done.
  cbn [app List.filter]. by rewrite String.eqb_refl.
Qed.

(** X8: choosing the id of a category, when no element before it in the
    listing has that id, its [navigate_to] is a page of the store and the
    call of [edit_message] returns, returns; the store is then the one
    [navigate] leaves for the handler from the page of the selector to
    that page, and the session shows that page with its embed; no message
    is sent. *)
Theorem CategorySelector_callback_shows (platform : Platform)
    (before after : list Entry) (c : ShopCategory) (view : ref)
    (vs : list string) (w : World) (q : ShopPage) :
  category_id c ∉ entry_id <$> before →
  pages w !! category_navigate_to c = Some q →
  platform (EditMessage (page_embed q) (category_navigate_to c))
    (navigated w {| to_page := category_navigate_to c;
                    from_page := view |}) = None →
  CategorySelector_callback platform (before ++ Category c :: after) view
    (category_id c :: vs) w
  = Some (Return tt,
          showing w
            (navigate {| to_page := category_navigate_to c;
                         from_page := view |} (pages w)).2
            (category_navigate_to c) (page_embed q)).
Proof.
  intros Hbefore Hq Hcall.
  apply CategorySelector_callback_selected; [| done | exact Hcall].
  by apply (filter_id_first before after (Category c)).
Qed.

Lemma CategorySelector_callback_shows_witness :
  (category_id (tools 1%positive) ∉ entry_id <$> [])
  ∧ pages on_top_page !! category_navigate_to (tools 1%positive)
      = Some tools_page
  ∧ reliable
      (EditMessage (page_embed tools_page)
         (category_navigate_to (tools 1%positive)))
      (navigated on_top_page
         {| to_page := category_navigate_to (tools 1%positive);
            from_page := 2%positive |}) = None
  ∧ CategorySelector_callback reliable
      ([] ++ Category (tools 1%positive) :: [])
      2%positive (category_id (tools 1%positive) :: []) on_top_page
    = Some (Return tt,
            showing on_top_page
              (navigate {| to_page := category_navigate_to (tools 1%positive);
                           from_page := 2%positive |}
                 (pages on_top_page)).2
              (category_navigate_to (tools 1%positive))
              (page_embed tools_page)).
Proof.
  assert (Hv : category_id (tools 1%positive) ∉ entry_id <$> [])
    by apply not_elem_of_nil.
  split; [exact Hv |]. split; [reflexivity |]. split; [reflexivity |].
  exact (CategorySelector_callback_shows reliable [] []
           (tools 1%positive) 2%positive [] on_top_page tools_page Hv
           eq_refl eq_refl).
Defined.

(** X9: on a page built from a listing that starts with an item, with no
    [on_select], every value the selector offers can be chosen: when the
    platform lets [send_message] return, the callback returns, having
    sent the one message that names an element of the listing with that
    id. *)
Theorem offered_item_resolves (platform : Platform)
    (run_handler : nat → Entry → M unit)
    (shop : Shop) (title description : string) (first : Entry)
    (rest : list Entry) (footer : option string) (p : ShopPage)
    (selector : Control) (v : string) (view : ref) (w : World) :
  is_category first = false →
  ShopPage_init shop title description (first :: rest) footer None
    = Return p →
  children p !! 0%nat = Some selector →
  v ∈ option_value <$> control_options selector →
  (∀ text, platform (SendMessage text) w = None) →
  ∃ it, it ∈ first :: rest
    ∧ entry_id it = v
    ∧ callback platform run_handler selector view [v] w
        = Some (Return tt,
                after_message w
                  ("Succesfully purchased " +:+ entry_name it)).
Proof.
  intros Hfirst Hp Hsel Hv Hcall.
  destruct (ShopPage_init_selector _ _ _ _ _ _ _ Hp)
    as (first' & rest' & [= <- <-] & Hchildren).
  rewrite Hchildren, Hfirst in Hsel. injection Hsel as <-.
  cbn [control_options ItemSelector_init] in Hv.
  rewrite select_options_values in Hv.
  destruct (filter_id_present _ v Hv)
    as (before & it & after & Hitems & _ & Hid & Hfilter).
  exists it. split; [rewrite Hitems, elem_of_app, elem_of_cons; auto |].
  split; [done |].
  cbn [callback ItemSelector_init].
  unfold ItemSelector_callback, bind. rewrite matching_chosen, Hfilter.
  cbn [index0 lookup list_lookup ret call_on_select].
  unfold on_select_default, send_message. by rewrite Hcall.
Qed.

Lemma offered_item_resolves_witness :
  is_category (Item hammer) = false
  ∧ ShopPage_init general_store "Tools" "All tools"
      (Item hammer :: [Item sword]) None None
    = Return
        {| page_shop := general_store;
           page_title := "Tools";
           page_items := [Item hammer; Item sword];
           page_description := "All tools";
           page_footer := None;
           page_embed :=
             create_embed general_store "Tools" "All tools"
               [Item hammer; Item sword] None;
           children := [ItemSelector_init [Item hammer; Item sword] None] |}
  ∧ [ItemSelector_init [Item hammer; Item sword] None] !! 0%nat
      = Some (ItemSelector_init [Item hammer; Item sword] None)
  ∧ ("i2" ∈ option_value
             <$> control_options
                   (ItemSelector_init [Item hammer; Item sword] None))
  ∧ (∀ text, reliable (SendMessage text) on_top_page = None)
  ∧ ∃ it, it ∈ Item hammer :: [Item sword]
      ∧ entry_id it = "i2"
      ∧ callback reliable no_handler
          (ItemSelector_init [Item hammer; Item sword] None) 1%positive
          ["i2"] on_top_page
        = Some (Return tt,
                after_message on_top_page
                  ("Succesfully purchased " +:+ entry_name it)).
Proof.
  assert (Hv : "i2" ∈ option_value
                       <$> control_options
                             (ItemSelector_init [Item hammer; Item sword]
                                None)).
  { apply (bool_decide_unpack _). vm_compute. exact I. }
  split; [reflexivity |]. split; [reflexivity |]. split; [reflexivity |].
  split; [exact Hv |]. split; [reflexivity |].
  exact (offered_item_resolves reliable no_handler general_store "Tools"
           "All tools" (Item hammer) [Item sword] None _ _ "i2" 1%positive
           on_top_page eq_refl eq_refl eq_refl Hv (λ _, eq_refl)).
Defined.

Lemma links_resolved_elem (σ : gmap ref ShopPage) (l : list Entry)
    (e : Entry) :
  links_resolved σ l = true → e ∈ l →
  ∃ c, e = Category c ∧ is_Some (σ !! category_navigate_to c).
Proof.
  unfold links_resolved. rewrite List.forallb_forall.
  intros Hall He. apply list_elem_of_In, Hall in He.
  destruct e as [i | c]; [done |].
  exists c. split; [done |]. by apply bool_decide_eq_true in He.
Qed.

(** X10: on a page built from a listing of categories whose
    [navigate_to] all name pages of the store, every value the selector
    offers can be chosen: when the platform lets [edit_message] return,
    the callback returns, the session shows the
    page of a category of the listing with that id, a page of the store,
    no page is added or removed, and no message is sent. *)
Theorem offered_category_resolves (platform : Platform)
    (run_handler : nat → Entry → M unit)
    (shop : Shop) (title description : string) (items : list Entry)
    (footer : option string) (on_select : option nat) (p : ShopPage)
    (selector : Control) (v : string) (view : ref) (w : World) :
  ShopPage_init shop title description items footer on_select = Return p →
  children p !! 0%nat = Some selector →
  links_resolved (pages w) items = true →
  v ∈ option_value <$> control_options selector →
  (∀ embed target w', platform (EditMessage embed target) w' = None) →
  ∃ c w',
    Category c ∈ items
    ∧ category_id c = v
    ∧ callback platform run_handler selector view [v] w = Some (Return tt, w')
    ∧ shown_view (session w') = category_navigate_to c
    ∧ is_Some (pages w' !! shown_view (session w'))
    ∧ dom (pages w') = dom (pages w)
    ∧ sent (session w') = sent (session w).
Proof.
  intros Hp Hsel Hlinks Hv Hcall.
  destruct (ShopPage_init_selector _ _ _ _ _ _ _ Hp)
    as (first & rest & Hitems & Hchildren).
  assert (Hfirst : is_category first = true).
  { destruct (links_resolved_elem (pages w) items first Hlinks)
      as (c & -> & _); [rewrite Hitems; apply elem_of_cons; auto | done]. }
  rewrite Hchildren, Hfirst in Hsel. injection Hsel as <-.
  cbn [control_options CategorySelector_init] in Hv.
  rewrite select_options_values in Hv.
  destruct (filter_id_present _ v Hv)
    as (before & it & after & Hsplit & _ & Hid & Hfilter).
  assert (Hit : it ∈ items)
    by (rewrite Hsplit, elem_of_app, elem_of_cons; auto).
  destruct (links_resolved_elem (pages w) items it Hlinks Hit)
    as (c & -> & [q Hq]).
  exists c. eexists. split; [done |]. split; [done |].
  cbn [callback CategorySelector_init].
  rewrite (CategorySelector_callback_selected platform items view v [] w
             c q); [| by rewrite Hfilter | done | apply Hcall].
  split; [reflexivity |]. unfold showing. cbn [session shown_view pages sent].
  split; [done |]. split; [| split; [apply dom_alter_L | done]].
  unfold navigate. cbn [snd to_page]. by rewrite lookup_alter_eq, Hq.
Qed.

Lemma offered_category_resolves_witness :
  ShopPage_init general_store "Shop" "Welcome" hub_listing None None
    = Return
        {| page_shop := general_store;
           page_title := "Shop";
           page_items := hub_listing;
           page_description := "Welcome";
           page_footer := None;
           page_embed :=
             create_embed general_store "Shop" "Welcome" hub_listing None;
           children := [CategorySelector_init hub_listing] |}
  ∧ [CategorySelector_init hub_listing] !! 0%nat
      = Some (CategorySelector_init hub_listing)
  ∧ links_resolved (pages on_top_page) hub_listing = true
  ∧ ("c2" ∈ option_value
             <$> control_options (CategorySelector_init hub_listing))
  ∧ (∀ embed target w', reliable (EditMessage embed target) w' = None)
  ∧ ∃ c w',
      Category c ∈ hub_listing
      ∧ category_id c = "c2"
      ∧ callback reliable no_handler (CategorySelector_init hub_listing) 2%positive
          ["c2"] on_top_page = Some (Return tt, w')
      ∧ shown_view (session w') = category_navigate_to c
      ∧ is_Some (pages w' !! shown_view (session w'))
      ∧ dom (pages w') = dom (pages on_top_page)
      ∧ sent (session w') = sent (session on_top_page).
Proof.
  assert (Hv : "c2" ∈ option_value
                       <$> control_options
                             (CategorySelector_init hub_listing)).
  { apply (bool_decide_unpack _). vm_compute. exact I. }
  split; [reflexivity |]. split; [reflexivity |]. split; [reflexivity |].
  split; [exact Hv |]. split; [reflexivity |].
  exact (offered_category_resolves reliable no_handler general_store "Shop"
           "Welcome" hub_listing None None _ _ "c2" 2%positive on_top_page
           eq_refl eq_refl eq_refl Hv (λ _ _ _, eq_refl)).
Defined.

(** ** What every page of a store keeps *)

Lemma selector_init_not_back (first : Entry) (items : list Entry)
    (on_select : option nat) :
  is_back_button
    (if is_category first
     then CategorySelector_init items
     else ItemSelector_init items on_select) = false.
Proof. by destruct (is_category first). Qed.

Lemma page_shape_ensure_back_button (h : NavigationHandler) (p : ShopPage) :
  page_shape (to_page h) p → page_shape (to_page h) (ensure_back_button h p).
Proof.
  intros (first & rest & on_select & Hitems & Hembed & Hchildren).
  exists first, rest, on_select. unfold ensure_back_button.
  destruct Hchildren as [Hc | (h' & Hto & Hc)]; rewrite Hc.
  - cbn [back_buttons List.filter]. rewrite selector_init_not_back.
    cbn [add_item page_items page_embed page_shop page_title
         page_description page_footer children].
    split; [done |]. split; [done |].
    right. exists h. split; [done |]. by rewrite Hc.
  - cbn [back_buttons List.filter is_back_button].
    rewrite selector_init_not_back.
    split; [done |]. split; [done |]. right. by exists h'.
Qed.

(** X11: every page of every store that the constructor and [navigate]
    build from the empty one has a listing that is not empty, the embed
    of its own title, description, listing and footer, and for children
    the selector of its listing, followed by at most one back button,
    whose handler leads to this very page. *)
Theorem reachable_page_shape (σ : gmap ref ShopPage) (r : ref)
    (p : ShopPage) :
  reachable σ → σ !! r = Some p → page_shape r p.
Proof.
  intros Hreach. revert r p.
  induction Hreach as [| σ shop title description items footer on_select _ IH
                       | σ h _ IH]; intros r p Hp.
  - by rewrite lookup_empty in Hp.
  - unfold ShopPage_new in Hp.
    destruct (ShopPage_init shop title description items footer on_select)
      as [q | e] eqn:Hq; cbn [snd] in Hp; [| by apply IH].
    destruct (decide (r = fresh (dom σ))) as [-> | Hr].
    + rewrite lookup_insert_eq in Hp. injection Hp as <-.
      destruct (ShopPage_init_selector _ _ _ _ _ _ _ Hq)
        as (first & rest & Hitems & Hchildren).
      apply ShopPage_init_fields in Hq as (Hs & Ht & Hi & Hd & Hf & Hembed).
      exists first, rest, on_select. rewrite Hs, Ht, Hi, Hd, Hf.
      split; [done |]. split; [done |]. by left.
    + rewrite lookup_insert_ne in Hp by done. by apply IH.
  - destruct (decide (r = to_page h)) as [-> | Hr].
    + rewrite navigate_lookup_to in Hp.
      destruct (σ !! to_page h) as [q |] eqn:Hq; [| done].
      injection Hp as <-. by apply page_shape_ensure_back_button, IH.
    + rewrite navigate_lookup_other in Hp by done. by apply IH.
Qed.

Lemma reachable_page_shape_witness :
  reachable two_pages
  ∧ two_pages !! 2%positive = Some top_page
  ∧ page_shape 2%positive top_page.
Proof.
  split; [exact two_pages_reachable |]. split; [reflexivity |].
  exact (reachable_page_shape two_pages 2%positive top_page
           two_pages_reachable eq_refl).
Defined.

(** ** Forward, then back *)

Lemma navigate_keeps_embed (h : NavigationHandler) (σ : gmap ref ShopPage)
    (r : ref) (a : ShopPage) :
  σ !! r = Some a →
  ∃ a', (navigate h σ).2 !! r = Some a' ∧ page_embed a' = page_embed a.
Proof.
  intros Ha. destruct (decide (r = to_page h)) as [-> | Hne].
  - exists (ensure_back_button h a).
    rewrite navigate_lookup_to, Ha. split; [done |].
    unfold ensure_back_button. by destruct (back_buttons (children a)).
  - exists a. by rewrite navigate_lookup_other.
Qed.

(** X12: after the choice of a category whose page has no back button
    yet, that page has one back button, of the handler from the page of
    the selector; pressing it shows the page of the selector again, with
    the embed it had, changes no page and sends nothing.  The two calls
    of [edit_message] are taken to return. *)
Theorem select_then_back_returns (platform : Platform)
    (run_handler : nat → Entry → M unit)
    (before after : list Entry) (c : ShopCategory) (view : ref)
    (vs : list string) (w : World) (q a : ShopPage) :
  category_id c ∉ entry_id <$> before →
  pages w !! category_navigate_to c = Some q →
  back_buttons (children q) = [] →
  pages w !! view = Some a →
  platform (EditMessage (page_embed q) (category_navigate_to c))
    (navigated w {| to_page := category_navigate_to c;
                    from_page := view |}) = None →
  platform (EditMessage (page_embed a) view)
    (showing w
       (navigate {| to_page := category_navigate_to c;
                    from_page := view |} (pages w)).2
       (category_navigate_to c) (page_embed q)) = None →
  let h := {| to_page := category_navigate_to c; from_page := view |} in
  ∃ w1 w2 q',
    callback platform run_handler
      (CategorySelector_init (before ++ Category c :: after)) view
      (category_id c :: vs) w = Some (Return tt, w1)
    ∧ pages w1 !! category_navigate_to c = Some q'
    ∧ back_buttons (children q') = [BackButton h]
    ∧ callback platform run_handler (BackButton h) (category_navigate_to c)
        [] w1 = Some (Return tt, w2)
    ∧ shown_view (session w2) = view
    ∧ shown_embed (session w2) = page_embed a
    ∧ pages w2 = pages w1
    ∧ sent (session w2) = sent (session w).
Proof.
  intros Hbefore Hq Hb Ha Hfirst Hsecond h.
  pose proof (filter_id_first before after (Category c) Hbefore) as Hsel.
  pose proof (CategorySelector_callback_selected platform _ view _ vs w c q
                Hsel Hq Hfirst) as Hrun.
  destruct (navigate_keeps_embed h (pages w) view a Ha)
    as (a' & Ha' & Hembed).
  exists (showing w (navigate h (pages w)).2 (category_navigate_to c)
            (page_embed q)).
  eexists. exists (ensure_back_button h q).
  split; [exact Hrun |].
  split.
  { cbn [pages showing]. fold h.
    pose proof (navigate_lookup_to h (pages w)) as Hto.
    cbn [to_page h] in Hto. by rewrite Hto, Hq. }
  split; [by rewrite ensure_back_button_back_buttons, Hb |].
  cbn [callback]. fold h. fold h in Hsecond.
  rewrite <- Hembed in Hsecond.
  rewrite (BackButton_callback_shows platform h
             (showing w (navigate h (pages w)).2 (category_navigate_to c)
                (page_embed q)) a' Ha' Hsecond).
  split; [reflexivity |]. cbn [session shown_view shown_embed pages sent].
  by rewrite Hembed.
Qed.

Lemma select_then_back_returns_witness :
  (category_id (tools 1%positive) ∉ entry_id <$> [])
  ∧ pages on_top_page !! category_navigate_to (tools 1%positive)
      = Some tools_page
  ∧ back_buttons (children tools_page) = []
  ∧ pages on_top_page !! 2%positive = Some top_page
  ∧ reliable
      (EditMessage (page_embed tools_page)
         (category_navigate_to (tools 1%positive)))
      (navigated on_top_page
         {| to_page := category_navigate_to (tools 1%positive);
            from_page := 2%positive |}) = None
  ∧ reliable (EditMessage (page_embed top_page) 2%positive)
      (showing on_top_page
         (navigate {| to_page := category_navigate_to (tools 1%positive);
                      from_page := 2%positive |} (pages on_top_page)).2
         (category_navigate_to (tools 1%positive))
         (page_embed tools_page)) = None
  ∧ let h := {| to_page := category_navigate_to (tools 1%positive);
                from_page := 2%positive |} in
    ∃ w1 w2 q',
      callback reliable no_handler
        (CategorySelector_init ([] ++ Category (tools 1%positive) :: []))
        2%positive (category_id (tools 1%positive) :: []) on_top_page
        = Some (Return tt, w1)
      ∧ pages w1 !! category_navigate_to (tools 1%positive) = Some q'
      ∧ back_buttons (children q') = [BackButton h]
      ∧ callback reliable no_handler (BackButton h)
          (category_navigate_to (tools 1%positive)) [] w1
          = Some (Return tt, w2)
      ∧ shown_view (session w2) = 2%positive
      ∧ shown_embed (session w2) = page_embed top_page
      ∧ pages w2 = pages w1
      ∧ sent (session w2) = sent (session on_top_page).
Proof.
  assert (Hv : category_id (tools 1%positive) ∉ entry_id <$> [])
    by apply not_elem_of_nil.
  split; [exact Hv |]. split; [reflexivity |]. split; [reflexivity |].
  split; [reflexivity |]. split; [reflexivity |]. split; [reflexivity |].
  exact (select_then_back_returns reliable no_handler [] []
           (tools 1%positive) 2%positive [] on_top_page tools_page top_page
           Hv eq_refl eq_refl eq_refl eq_refl eq_refl).
Defined.

(** X13: two navigations in a row, from a first page to a second and
    from the second to a third that is another object, both without back
    button before, leave each of the two with its own back button: the
    one of the third page leads to the second, and the one of the second
    still leads to the first. *)
Theorem back_buttons_retrace (h1 h2 : NavigationHandler)
    (σ : gmap ref ShopPage) (second third : ShopPage) :
  from_page h2 = to_page h1 →
  to_page h2 ≠ to_page h1 →
  σ !! to_page h1 = Some second →
  σ !! to_page h2 = Some third →
  back_buttons (children second) = [] →
  back_buttons (children third) = [] →
  ∃ second' third',
    (navigate h2 (navigate h1 σ).2).2 !! to_page h2 = Some third'
    ∧ back_buttons (children third') = [BackButton h2]
    ∧ go_back h2 = to_page h1
    ∧ (navigate h2 (navigate h1 σ).2).2 !! to_page h1 = Some second'
    ∧ back_buttons (children second') = [BackButton h1]
    ∧ go_back h1 = from_page h1.
Proof.
  intros Hfrom Hne Hsecond Hthird Hb2 Hb3.
  exists (ensure_back_button h1 second), (ensure_back_button h2 third).
  split.
  { rewrite navigate_lookup_to, navigate_lookup_other by done.
    by rewrite Hthird. }
  split; [by rewrite ensure_back_button_back_buttons, Hb3 |].
  split; [done |].
  split.
  { rewrite navigate_lookup_other by done.
    by rewrite navigate_lookup_to, Hsecond. }
  split; [by rewrite ensure_back_button_back_buttons, Hb2 | done].
Qed.

Lemma back_buttons_retrace_witness :
  let h1 := {| to_page := 2%positive; from_page := 3%positive |} in
  let h2 := top_to_tools in
  from_page h2 = to_page h1
  ∧ to_page h2 ≠ to_page h1
  ∧ three_pages !! to_page h1 = Some top_page
  ∧ three_pages !! to_page h2 = Some tools_page
  ∧ back_buttons (children top_page) = []
  ∧ back_buttons (children tools_page) = []
  ∧ ∃ second' third',
      (navigate h2 (navigate h1 three_pages).2).2 !! to_page h2
        = Some third'
      ∧ back_buttons (children third') = [BackButton h2]
      ∧ go_back h2 = to_page h1
      ∧ (navigate h2 (navigate h1 three_pages).2).2 !! to_page h1
          = Some second'
      ∧ back_buttons (children second') = [BackButton h1]
      ∧ go_back h1 = from_page h1.
Proof.
  intros h1 h2.
  assert (Hne : to_page h2 ≠ to_page h1) by (cbn; lia).
  split; [reflexivity |]. split; [exact Hne |]. split; [reflexivity |].
  split; [reflexivity |]. split; [reflexivity |]. split; [reflexivity |].
  exact (back_buttons_retrace h1 h2 three_pages top_page tools_page
           eq_refl Hne eq_refl eq_refl eq_refl eq_refl).
Defined.

(** X14: [BackButton.callback] changes no page and sends no message,
    and raises no exception of its own: either the call of
    [edit_message] raises, and the world is as it was, or it returns, and
    the session shows the page [go_back] returns, with its embed. *)
Theorem BackButton_callback_settles (platform : Platform)
    (h : NavigationHandler) (w w1 : World) (o : Outcome unit) :
  BackButton_callback platform h w = Some (o, w1) →
  pages w1 = pages w
  ∧ sent (session w1) = sent (session w)
  ∧ ((∃ cls, o = Raise (PlatformError cls) ∧ w1 = w)
     ∨ (o = Return tt
        ∧ shown_view (session w1) = go_back h
        ∧ ∃ q, pages w !! go_back h = Some q
               ∧ shown_embed (session w1) = page_embed q)).
Proof.
  unfold BackButton_callback, bind, deref, go_back.
  destruct (pages w !! from_page h) as [q |] eqn:Hq; [| done].
  unfold edit_message.
  destruct (platform _ w) as [cls |]; intros [= <- <-].
  - split; [done |]. split; [done |]. left. by exists cls.
  - split; [done |]. split; [done |]. right.
    split; [done |]. split; [done |]. by exists q.
Qed.

Lemma BackButton_callback_settles_witness :
  BackButton_callback offline top_to_tools on_top_page
    = Some (Raise (PlatformError "HTTPException"), on_top_page)
  ∧ pages on_top_page = pages on_top_page
  ∧ sent (session on_top_page) = sent (session on_top_page)
  ∧ ((∃ cls, @Raise unit (PlatformError "HTTPException")
               = Raise (PlatformError cls)
             ∧ on_top_page = on_top_page)
     ∨ (Raise (PlatformError "HTTPException") = Return tt
        ∧ shown_view (session on_top_page) = go_back top_to_tools
        ∧ ∃ q, pages on_top_page !! go_back top_to_tools = Some q
               ∧ shown_embed (session on_top_page) = page_embed q)).
Proof.
  split; [reflexivity |].
  apply (BackButton_callback_settles offline top_to_tools on_top_page
           on_top_page (Raise (PlatformError "HTTPException"))).
  reflexivity.
Defined.

(** X15: the [on_select] given to a page whose listing starts with a
    category is dropped: the page built is the same for every
    [on_select], and no callback of its selector runs a coroutine of the
    application. *)
Theorem category_page_drops_on_select (shop : Shop)
    (title description : string) (c : ShopCategory) (rest : list Entry)
    (footer : option string) (on_select on_select' : option nat)
    (platform : Platform)
    (run_handler run_handler' : nat → Entry → M unit) (view : ref)
    (values : list string) (w : World) :
  ShopPage_init shop title description (Category c :: rest) footer on_select
    = ShopPage_init shop title description (Category c :: rest) footer
        on_select'
  ∧ ∃ p selector,
      ShopPage_init shop title description (Category c :: rest) footer
        on_select = Return p
      ∧ children p = [selector]
      ∧ callback platform run_handler selector view values w
          = callback platform run_handler' selector view values w.
Proof.
  split; [done |].
  eexists. eexists. split; [reflexivity |]. split; [reflexivity |]. done.
Qed.
